(** * PBR viewport session: model of [RayTracingSimulation] (src/App.tsx)

    The component builds a three.js scene with two metallic spheres, starts
    an asynchronous HDRI load, binds a lil-gui panel to the live objects, runs
    a render loop and releases everything in the effect's cleanup function.

    Conventions of the embedding:
    - a TypeScript [number] is a real number ([R]); rounding of IEEE doubles
      is outside the model.  Integer handles and colour codes are [nat]/[Z];
    - every object created by [new] is a record, and the closure variables of
      the effect ([scene], [camera], [renderer], [material1], ...) are the
      fields of one [Session] record that the callbacks pass along;
    - calls into the host or into three.js / lil-gui whose result the
      component never reads back (DOM attachment, [dispose], [render],
      [console.error], ...) are appended to the session's [trace], in
      program order;
    - the orbit controller is third-party code that owns hidden state and
      moves the camera: it is a parameter of the development. *)

From Stdlib Require Import Reals Lra List String ZArith Bool Arith Lia.
Import ListNotations.

Open Scope R_scope.

(** ** Engine objects *)

Module Vector3.
Record t := mk { x : R; y : R; z : R }.
Definition zero : t := mk 0 0 0.
(** [v.set(a, b, c)] *)
Definition set (a b c : R) (_ : t) : t := mk a b c.
(** [v.x = a] and [v.y = b] *)
Definition setX (a : R) (v : t) : t := mk a (y v) (z v).
Definition setY (b : R) (v : t) : t := mk (x v) b (z v).
End Vector3.

Module Euler.
Record t := mk { x : R; y : R; z : R }.
Definition zero : t := mk 0 0 0.
(** [e.y = b] *)
Definition setY (b : R) (e : t) : t := mk (x e) b (z e).
End Euler.

Inductive Mapping := UVMapping | EquirectangularReflectionMapping.
Inductive ToneMapping := NoToneMapping | ACESFilmicToneMapping.

Module Texture.
(** A loaded image; [id] is the identity of the JavaScript object, which
    is what [scene.background], [scene.environment] and
    [environmentTexture] share. *)
Record t := mk { id : nat; mapping : Mapping }.
Definition setMapping (m : Mapping) (tx : t) : t := mk (id tx) m.
End Texture.

Module Material.
(** [MeshStandardMaterial]: the three parameters the component sets. *)
Record t := mk { color : Z; metalness : R; roughness : R }.
Definition setColor (c : Z) (m : t) : t := mk c (metalness m) (roughness m).
Definition setMetalness (v : R) (m : t) : t := mk (color m) v (roughness m).
Definition setRoughness (v : R) (m : t) : t := mk (color m) (metalness m) v.
End Material.

(** [new THREE.SphereGeometry(radius, widthSegments, heightSegments)] *)
Record SphereGeometry := mkSphereGeometry
  { radius : R; widthSegments : nat; heightSegments : nat }.

(** The two materials of the session, by name. *)
Inductive MaterialRef := RefMaterial1 | RefMaterial2.
(** The two meshes of the session, by name. *)
Inductive MeshRef := RefSphere1 | RefSphere2.

Module Mesh.
Record t := mk
  { geometry : SphereGeometry; material : MaterialRef; position : Vector3.t }.
(** [new THREE.Mesh(geometry, material)]: placed at the origin. *)
Definition new (g : SphereGeometry) (m : MaterialRef) : t :=
  mk g m Vector3.zero.
Definition setPosition (p : Vector3.t) (o : t) : t :=
  mk (geometry o) (material o) p.
End Mesh.

Module Camera.
Record t := mk
  { fov : R; aspect : R; near : R; far : R; position : Vector3.t }.
(** [new THREE.PerspectiveCamera(fov, aspect, near, far)] *)
Definition new (f a n fr : R) : t := mk f a n fr Vector3.zero.
Definition setAspect (a : R) (c : t) : t :=
  mk (fov c) a (near c) (far c) (position c).
Definition setPosition (p : Vector3.t) (c : t) : t :=
  mk (fov c) (aspect c) (near c) (far c) p.
End Camera.

Module Renderer.
Record t := mk
  { antialias : bool; alpha : bool;
    width : R; height : R; pixelRatio : R;
    toneMapping : ToneMapping; toneMappingExposure : R }.
(** [new THREE.WebGLRenderer({antialias, alpha})]: three.js starts a
    renderer with pixel ratio 1, no tone mapping and exposure 1; the
    initial size is the canvas default. *)
Definition new (aa al : bool) : t := mk aa al 300 150 1 NoToneMapping 1.
Definition setSize (w h : R) (r : t) : t :=
  mk (antialias r) (alpha r) w h (pixelRatio r)
     (toneMapping r) (toneMappingExposure r).
Definition setPixelRatio (p : R) (r : t) : t :=
  mk (antialias r) (alpha r) (width r) (height r) p
     (toneMapping r) (toneMappingExposure r).
Definition setToneMapping (m : ToneMapping) (r : t) : t :=
  mk (antialias r) (alpha r) (width r) (height r) (pixelRatio r)
     m (toneMappingExposure r).
Definition setToneMappingExposure (e : R) (r : t) : t :=
  mk (antialias r) (alpha r) (width r) (height r) (pixelRatio r)
     (toneMapping r) e.
End Renderer.

Module Scene.
Record t := mk
  { background : option Texture.t;
    environment : option Texture.t;
    backgroundRotation : Euler.t;
    environmentRotation : Euler.t;
    children : list MeshRef }.
(** [new THREE.Scene()] *)
Definition new : t := mk None None Euler.zero Euler.zero [].
Definition setBackground (b : option Texture.t) (s : t) : t :=
  mk b (environment s) (backgroundRotation s) (environmentRotation s)
     (children s).
Definition setEnvironment (e : option Texture.t) (s : t) : t :=
  mk (background s) e (backgroundRotation s) (environmentRotation s)
     (children s).
Definition setBackgroundRotation (r : Euler.t) (s : t) : t :=
  mk (background s) (environment s) r (environmentRotation s) (children s).
Definition setEnvironmentRotation (r : Euler.t) (s : t) : t :=
  mk (background s) (environment s) (backgroundRotation s) r (children s).
(** [scene.add(obj)] *)
Definition add (o : MeshRef) (s : t) : t :=
  mk (background s) (environment s) (backgroundRotation s)
     (environmentRotation s) (children s ++ [o]).
End Scene.

(** ** Host inputs *)

(** What the component reads from [window] when it runs. *)
Record Window := mkWindow
  { innerWidth : R; innerHeight : R; devicePixelRatio : R }.

(** What one run of [animate] reads from the host: the handle returned by
    [requestAnimationFrame] and the value of [Date.now()]. *)
Record Frame := mkFrame { rafHandle : nat; dateNow : R }.

(** [Math.min] on two numbers. *)
Definition Math_min (a b : R) : R := Rmin a b.

(** ** Calls whose effect lives outside the session *)

Inductive Resource :=
| ResGeometry
| ResMaterial1
| ResMaterial2
| ResRenderer
| ResTexture (id : nat).

Inductive Effect :=
| AppendChild
| RemoveChild
| LoadRequest (url : string)
| ConsoleError (msg err : string)
| GuiCreate (title : string)
| GuiDestroy
| RequestAnimationFrame (handle : nat)
| CancelAnimationFrame (handle : option nat)
| UpdateProjectionMatrix
| Render
| AddResizeListener
| RemoveResizeListener
| Dispose (r : Resource).

(** How many times the texture object [i] was disposed in a trace. *)
Fixpoint texture_disposals (i : nat) (tr : list Effect) : nat :=
  match tr with
  | [] => 0
  | Dispose (ResTexture j) :: tr' =>
      ((if Nat.eqb i j then 1 else 0) + texture_disposals i tr')%nat
  | _ :: tr' => texture_disposals i tr'
  end.

(** How many times any texture at all was disposed in a trace. *)
Fixpoint any_texture_disposals (tr : list Effect) : nat :=
  match tr with
  | [] => 0
  | Dispose (ResTexture _) :: tr' => S (any_texture_disposals tr')
  | _ :: tr' => any_texture_disposals tr'
  end.

Definition hdriUrl : string :=
  "https://dl.polyhaven.org/file/ph-assets/HDRIs/hdr/1k/belfast_farmhouse_1k.hdr".

(** [const envParams = { exposure: 1.0, rotation: 0 }] *)
Record EnvParams := mkEnvParams { exposure : R; rotation : R }.

(** ** What can happen to a live session *)

(** The callbacks the host can invoke between mount and cleanup: the two
    outcomes of the HDRI load, the eight panel controllers, a display frame
    and a window resize. *)
Inductive Event :=
| HdriLoaded (texture : Texture.t)
| HdriFailed (err : string)
| Material1Metalness (v : R)
| Material1Roughness (v : R)
| Material1Color (c : Z)
| Material2Metalness (v : R)
| Material2Roughness (v : R)
| Material2Color (c : Z)
| EnvExposure (v : R)
| EnvRotation (v : R)
| AnimationFrame (f : Frame)
| WindowResize (w : Window).

(** The textures handed to the success callback, in order of arrival. *)
Fixpoint loads (evs : list Event) : list Texture.t :=
  match evs with
  | [] => []
  | HdriLoaded texture :: evs' => texture :: loads evs'
  | _ :: evs' => loads evs'
  end.

(** The texture a success callback stores: the loaded one, tagged. *)
Definition tagged (texture : Texture.t) : Texture.t :=
  Texture.setMapping EquirectangularReflectionMapping texture.

(** The content of the [environmentTexture] variable after the events
    [evs], when it held [cur] before them. *)
Fixpoint stored_texture (evs : list Event) (cur : option Texture.t)
  : option Texture.t :=
  match evs with
  | [] => cur
  | HdriLoaded texture :: evs' => stored_texture evs' (Some (tagged texture))
  | _ :: evs' => stored_texture evs' cur
  end.

(** ** A concrete host, for examples *)

Module Demo.
(** An orbit controller nobody touches, with damping at rest. *)
Definition orbit_new (_ : Camera.t) : unit := tt.
Definition orbit_update (o : unit) (c : Camera.t) : unit * Camera.t := (o, c).
Definition window : Window := mkWindow 800 600 3.
Definition frame0 : Frame := mkFrame 1 0.
Definition texture : Texture.t := Texture.mk 7 UVMapping.
End Demo.

(** ** The session *)

Section Viewport.

(** Hidden state of [OrbitControls], its constructor and its [update()],
    which may move the camera (damping, pointer input). *)
Variable OrbitState : Type.
Variable orbit_new : Camera.t -> OrbitState.
Variable orbit_update : OrbitState -> Camera.t -> OrbitState * Camera.t.

Record OrbitControls := mkOrbitControls
  { enableDamping : bool; dampingFactor : R; orbit : OrbitState }.

(** The closure variables of the effect, the [loading] hook state and the
    trace of outside calls. *)
Record Session := mkSession
  { scene : Scene.t;
    camera : Camera.t;
    renderer : Renderer.t;
    controls : OrbitControls;
    environmentTexture : option Texture.t;
    loading : bool;
    geometry : SphereGeometry;
    material1 : Material.t;
    material2 : Material.t;
    sphere1 : Mesh.t;
    sphere2 : Mesh.t;
    envParams : EnvParams;
    animationId : option nat;
    trace : list Effect }.

Definition set_scene (v : Scene.t) (s : Session) : Session :=
  mkSession v (camera s) (renderer s) (controls s) (environmentTexture s)
    (loading s) (geometry s) (material1 s) (material2 s) (sphere1 s)
    (sphere2 s) (envParams s) (animationId s) (trace s).
Definition set_camera (v : Camera.t) (s : Session) : Session :=
  mkSession (scene s) v (renderer s) (controls s) (environmentTexture s)
    (loading s) (geometry s) (material1 s) (material2 s) (sphere1 s)
    (sphere2 s) (envParams s) (animationId s) (trace s).
Definition set_renderer (v : Renderer.t) (s : Session) : Session :=
  mkSession (scene s) (camera s) v (controls s) (environmentTexture s)
    (loading s) (geometry s) (material1 s) (material2 s) (sphere1 s)
    (sphere2 s) (envParams s) (animationId s) (trace s).
Definition set_controls (v : OrbitControls) (s : Session) : Session :=
  mkSession (scene s) (camera s) (renderer s) v (environmentTexture s)
    (loading s) (geometry s) (material1 s) (material2 s) (sphere1 s)
    (sphere2 s) (envParams s) (animationId s) (trace s).
Definition set_environmentTexture (v : option Texture.t) (s : Session)
  : Session :=
  mkSession (scene s) (camera s) (renderer s) (controls s) v
    (loading s) (geometry s) (material1 s) (material2 s) (sphere1 s)
    (sphere2 s) (envParams s) (animationId s) (trace s).
(** [setLoading(v)] *)
Definition setLoading (v : bool) (s : Session) : Session :=
  mkSession (scene s) (camera s) (renderer s) (controls s)
    (environmentTexture s) v (geometry s) (material1 s) (material2 s)
    (sphere1 s) (sphere2 s) (envParams s) (animationId s) (trace s).
Definition set_material1 (v : Material.t) (s : Session) : Session :=
  mkSession (scene s) (camera s) (renderer s) (controls s)
    (environmentTexture s) (loading s) (geometry s) v (material2 s)
    (sphere1 s) (sphere2 s) (envParams s) (animationId s) (trace s).
Definition set_material2 (v : Material.t) (s : Session) : Session :=
  mkSession (scene s) (camera s) (renderer s) (controls s)
    (environmentTexture s) (loading s) (geometry s) (material1 s) v
    (sphere1 s) (sphere2 s) (envParams s) (animationId s) (trace s).
Definition set_sphere1 (v : Mesh.t) (s : Session) : Session :=
  mkSession (scene s) (camera s) (renderer s) (controls s)
    (environmentTexture s) (loading s) (geometry s) (material1 s)
    (material2 s) v (sphere2 s) (envParams s) (animationId s) (trace s).
Definition set_sphere2 (v : Mesh.t) (s : Session) : Session :=
  mkSession (scene s) (camera s) (renderer s) (controls s)
    (environmentTexture s) (loading s) (geometry s) (material1 s)
    (material2 s) (sphere1 s) v (envParams s) (animationId s) (trace s).
Definition set_envParams (v : EnvParams) (s : Session) : Session :=
  mkSession (scene s) (camera s) (renderer s) (controls s)
    (environmentTexture s) (loading s) (geometry s) (material1 s)
    (material2 s) (sphere1 s) (sphere2 s) v (animationId s) (trace s).
Definition set_animationId (v : option nat) (s : Session) : Session :=
  mkSession (scene s) (camera s) (renderer s) (controls s)
    (environmentTexture s) (loading s) (geometry s) (material1 s)
    (material2 s) (sphere1 s) (sphere2 s) (envParams s) v (trace s).
(** Record one outside call. *)
Definition emit (e : Effect) (s : Session) : Session :=
  mkSession (scene s) (camera s) (renderer s) (controls s)
    (environmentTexture s) (loading s) (geometry s) (material1 s)
    (material2 s) (sphere1 s) (sphere2 s) (envParams s) (animationId s)
    (trace s ++ [e]).

(** Statements in program order: [s |> f |> g] runs [f], then [g]. *)
Notation "s |> f" := (f s) (at level 45, left associativity, only parsing).

(** *** The HDRI loader callbacks (section 3 of the effect) *)

(** [(texture) => { ... }], the success callback of [hdriLoader.load]. *)
Definition onLoad (texture : Texture.t) (s : Session) : Session :=
  let texture := tagged texture in
  s |> set_scene (Scene.setBackground (Some texture) (scene s))
    |> (fun s => set_scene (Scene.setEnvironment (Some texture) (scene s)) s)
    |> set_environmentTexture (Some texture)
    |> setLoading false.

(** [(err) => { ... }], the failure callback of [hdriLoader.load]. *)
Definition onError (err : string) (s : Session) : Session :=
  s |> emit (ConsoleError "An error occurred loading the HDRI:" err)
    |> setLoading false.

(** *** The panel (section 5) *)

(** A lil-gui controller made by [folder.add(object, property, min, max)]
    writes the delivered value into [object[property]]; the six material
    controllers have no further callback. *)
Definition set_material1_metalness (v : R) (s : Session) : Session :=
  set_material1 (Material.setMetalness v (material1 s)) s.
Definition set_material1_roughness (v : R) (s : Session) : Session :=
  set_material1 (Material.setRoughness v (material1 s)) s.
Definition set_material1_color (c : Z) (s : Session) : Session :=
  set_material1 (Material.setColor c (material1 s)) s.
Definition set_material2_metalness (v : R) (s : Session) : Session :=
  set_material2 (Material.setMetalness v (material2 s)) s.
Definition set_material2_roughness (v : R) (s : Session) : Session :=
  set_material2 (Material.setRoughness v (material2 s)) s.
Definition set_material2_color (c : Z) (s : Session) : Session :=
  set_material2 (Material.setColor c (material2 s)) s.

(** [.onChange((v) => { renderer.toneMappingExposure = v; })] *)
Definition exposure_onChange (v : R) (s : Session) : Session :=
  set_renderer (Renderer.setToneMappingExposure v (renderer s)) s.

(** [.onChange((v) => { const radians = v * (Math.PI / 180); ... })] *)
Definition rotation_onChange (v : R) (s : Session) : Session :=
  let radians := v * (PI / 180) in
  s |> (fun s => set_scene
          (Scene.setBackgroundRotation
             (Euler.setY radians (Scene.backgroundRotation (scene s)))
             (scene s)) s)
    |> (fun s => set_scene
          (Scene.setEnvironmentRotation
             (Euler.setY radians (Scene.environmentRotation (scene s)))
             (scene s)) s).

(** The two environment controllers: the value goes into [envParams],
    then to the [onChange] callback. *)
Definition set_envParams_exposure (v : R) (s : Session) : Session :=
  s |> set_envParams (mkEnvParams v (rotation (envParams s)))
    |> exposure_onChange v.
Definition set_envParams_rotation (v : R) (s : Session) : Session :=
  s |> set_envParams (mkEnvParams (exposure (envParams s)) v)
    |> rotation_onChange v.

(** *** The render loop (section 6) *)

(** [controls.update()] *)
Definition controls_update (s : Session) : Session :=
  let r := orbit_update (orbit (controls s)) (camera s) in
  s |> set_controls
         (mkOrbitControls (enableDamping (controls s))
            (dampingFactor (controls s)) (fst r))
    |> set_camera (snd r).

(** One run of [animate]. *)
Definition animate (f : Frame) (s : Session) : Session :=
  let s := s |> emit (RequestAnimationFrame (rafHandle f))
             |> set_animationId (Some (rafHandle f)) in
  let time := dateNow f * 0.001 in
  s |> (fun s => set_sphere1
          (Mesh.setPosition
             (Vector3.setY (sin time * 0.1) (Mesh.position (sphere1 s)))
             (sphere1 s)) s)
    |> (fun s => set_sphere2
          (Mesh.setPosition
             (Vector3.setY (sin (time + 2) * 0.1) (Mesh.position (sphere2 s)))
             (sphere2 s)) s)
    |> controls_update
    |> emit Render.

(** *** Resize *)

Definition onWindowResize (w : Window) (s : Session) : Session :=
  s |> set_camera (Camera.setAspect (innerWidth w / innerHeight w) (camera s))
    |> emit UpdateProjectionMatrix
    |> (fun s => set_renderer
          (Renderer.setSize (innerWidth w) (innerHeight w) (renderer s)) s).

(** *** The effect body (sections 1 to 6) *)

(** The body of [useEffect] past the [mountRef.current] test, with the
    window it reads and the frame of its one direct call of [animate]. *)
Definition setup (w : Window) (f : Frame) : Session :=
  let scene := Scene.new in
  let camera := Camera.new 45 (innerWidth w / innerHeight w) 0.1 100 in
  let camera :=
    Camera.setPosition (Vector3.set 0 0 6 (Camera.position camera)) camera in
  let renderer :=
    Renderer.new true true
    |> Renderer.setSize (innerWidth w) (innerHeight w)
    |> Renderer.setPixelRatio (Math_min (devicePixelRatio w) 2)
    |> Renderer.setToneMapping ACESFilmicToneMapping
    |> Renderer.setToneMappingExposure 1.0 in
  let controls := mkOrbitControls true 0.05 (orbit_new camera) in
  let geometry := mkSphereGeometry 1 64 64 in
  let material1 := Material.mk 0xffffff 1.0 0.05 in
  let sphere1 :=
    let m := Mesh.new geometry RefMaterial1 in
    Mesh.setPosition (Vector3.setX (-1.2) (Mesh.position m)) m in
  let scene := scene |> Scene.add RefSphere1 in
  let material2 := Material.mk 0xffaa00 1.0 0.2 in
  let sphere2 :=
    let m := Mesh.new geometry RefMaterial2 in
    Mesh.setPosition (Vector3.setX 1.2 (Mesh.position m)) m in
  let scene := scene |> Scene.add RefSphere2 in
  let envParams := mkEnvParams 1.0 0 in
  mkSession scene camera renderer controls None true geometry
    material1 material2 sphere1 sphere2 envParams None
    [AppendChild; LoadRequest hdriUrl; GuiCreate "Material Settings"]
  |> animate f
  |> emit AddResizeListener.

(** The effect: nothing happens when the mount node is absent. *)
Definition mountEffect (mountCurrent : bool) (w : Window) (f : Frame)
  : option Session :=
  if negb mountCurrent then None else Some (setup w f).

(** *** Cleanup *)

(** The function the effect returns; [mountCurrent] tells whether
    [mountRef.current] is still set when it runs. *)
Definition cleanup (mountCurrent : bool) (s : Session) : Session :=
  let s := s |> emit RemoveResizeListener
             |> emit (CancelAnimationFrame (animationId s)) in
  let s := if mountCurrent then emit RemoveChild s else s in
  let s := s |> emit (Dispose ResGeometry)
             |> emit (Dispose ResMaterial1)
             |> emit (Dispose ResMaterial2)
             |> emit (Dispose ResRenderer) in
  let s := match environmentTexture s with
           | Some texture => emit (Dispose (ResTexture (Texture.id texture))) s
           | None => s
           end in
  s |> emit GuiDestroy.

(** *** A session's life *)

Definition step (s : Session) (e : Event) : Session :=
  match e with
  | HdriLoaded texture => onLoad texture s
  | HdriFailed err => onError err s
  | Material1Metalness v => set_material1_metalness v s
  | Material1Roughness v => set_material1_roughness v s
  | Material1Color c => set_material1_color c s
  | Material2Metalness v => set_material2_metalness v s
  | Material2Roughness v => set_material2_roughness v s
  | Material2Color c => set_material2_color c s
  | EnvExposure v => set_envParams_exposure v s
  | EnvRotation v => set_envParams_rotation v s
  | AnimationFrame f => animate f s
  | WindowResize w => onWindowResize w s
  end.

Definition run (evs : list Event) (s : Session) : Session :=
  fold_left step evs s.

End Viewport.

Arguments scene {OrbitState} _.
Arguments camera {OrbitState} _.
Arguments renderer {OrbitState} _.
Arguments controls {OrbitState} _.
Arguments environmentTexture {OrbitState} _.
Arguments loading {OrbitState} _.
Arguments geometry {OrbitState} _.
Arguments material1 {OrbitState} _.
Arguments material2 {OrbitState} _.
Arguments sphere1 {OrbitState} _.
Arguments sphere2 {OrbitState} _.
Arguments envParams {OrbitState} _.
Arguments animationId {OrbitState} _.
Arguments trace {OrbitState} _.
Arguments onLoad {OrbitState} _ _.
Arguments onError {OrbitState} _ _.
Arguments set_material1_metalness {OrbitState} _ _.
Arguments exposure_onChange {OrbitState} _ _.
Arguments rotation_onChange {OrbitState} _ _.
Arguments set_envParams_exposure {OrbitState} _ _.
Arguments set_envParams_rotation {OrbitState} _ _.
Arguments animate {OrbitState} _ _ _.
Arguments onWindowResize {OrbitState} _ _.
Arguments cleanup {OrbitState} _ _.
Arguments setup {OrbitState} _ _ _ _.
Arguments mountEffect {OrbitState} _ _ _ _ _.
Arguments step {OrbitState} _ _ _.
Arguments run {OrbitState} _ _ _.

(** ** What the component draws over the canvas *)

Inductive Overlay := LoadingOverlay | InfoOverlay.

(** The two conditional children of the returned JSX: [{loading && ...}]
    and [{!loading && ...}], in document order. *)
Definition overlays (loading : bool) : list Overlay :=
  (if loading then [LoadingOverlay] else [])
  ++ (if negb loading then [InfoOverlay] else []).

(** ** Reading events and traces *)

Definition is_loader_callback (e : Event) : bool :=
  match e with
  | HdriLoaded _ | HdriFailed _ => true
  | _ => false
  end.

Definition is_frame (e : Event) : bool :=
  match e with
  | AnimationFrame _ => true
  | _ => false
  end.

Definition is_material2_control (e : Event) : bool :=
  match e with
  | Material2Metalness _ | Material2Roughness _ | Material2Color _ => true
  | _ => false
  end.

Definition is_material1_control (e : Event) : bool :=
  match e with
  | Material1Metalness _ | Material1Roughness _ | Material1Color _ => true
  | _ => false
  end.

(** The outside calls a live callback can make. *)
Definition live_effect (e : Effect) : bool :=
  match e with
  | ConsoleError _ _ | RequestAnimationFrame _ | UpdateProjectionMatrix
  | Render => true
  | _ => false
  end.

Definition Resource_eqb (a b : Resource) : bool :=
  match a, b with
  | ResGeometry, ResGeometry => true
  | ResMaterial1, ResMaterial1 => true
  | ResMaterial2, ResMaterial2 => true
  | ResRenderer, ResRenderer => true
  | ResTexture i, ResTexture j => Nat.eqb i j
  | _, _ => false
  end.

Definition is_dispose_of (r : Resource) (e : Effect) : bool :=
  match e with
  | Dispose r' => Resource_eqb r r'
  | _ => false
  end.

Definition is_render (e : Effect) : bool :=
  match e with Render => true | _ => false end.
Definition is_request_frame (e : Effect) : bool :=
  match e with RequestAnimationFrame _ => true | _ => false end.
Definition is_load_request (e : Effect) : bool :=
  match e with LoadRequest _ => true | _ => false end.
Definition is_gui_create (e : Effect) : bool :=
  match e with GuiCreate _ => true | _ => false end.
Definition is_gui_destroy (e : Effect) : bool :=
  match e with GuiDestroy => true | _ => false end.
Definition is_add_listener (e : Effect) : bool :=
  match e with AddResizeListener => true | _ => false end.
Definition is_remove_listener (e : Effect) : bool :=
  match e with RemoveResizeListener => true | _ => false end.
Definition is_append_child (e : Effect) : bool :=
  match e with AppendChild => true | _ => false end.
Definition is_remove_child (e : Effect) : bool :=
  match e with RemoveChild => true | _ => false end.

(** How many calls of a trace satisfy [p]. *)
Definition count (p : Effect -> bool) (tr : list Effect) : nat :=
  List.length (List.filter p tr).

(** The handle of the last [requestAnimationFrame] call of a trace, [acc]
    when there is none. *)
Fixpoint last_requested (tr : list Effect) (acc : option nat) : option nat :=
  match tr with
  | [] => acc
  | RequestAnimationFrame h :: tr' => last_requested tr' (Some h)
  | _ :: tr' => last_requested tr' acc
  end.

(** The window whose dimensions the camera and the renderer were last set
    from: the one of the last resize, [w0] when there is none. *)
Fixpoint last_window (evs : list Event) (w0 : Window) : Window :=
  match evs with
  | [] => w0
  | WindowResize w :: evs' => last_window evs' w
  | _ :: evs' => last_window evs' w0
  end.

(** The outside calls each live callback makes, in order. *)
Definition emitted (e : Event) : list Effect :=
  match e with
  | HdriFailed err => [ConsoleError "An error occurred loading the HDRI:" err]
  | AnimationFrame f => [RequestAnimationFrame (rafHandle f); Render]
  | WindowResize _ => [UpdateProjectionMatrix]
  | _ => []
  end.

(** * Properties *)

(** ** Counting disposals in a trace *)

Lemma texture_disposals_app (i : nat) (a b : list Effect) :
  texture_disposals i (a ++ b)
  = (texture_disposals i a + texture_disposals i b)%nat.
Proof.
  induction a as [|e a IH]; [reflexivity|].
  destruct e as [| | | | | | | | | | | |r]; simpl; try exact IH.
  destruct r; simpl; try exact IH.
  rewrite IH. lia.
Qed.

Lemma any_texture_disposals_app (a b : list Effect) :
  any_texture_disposals (a ++ b)
  = (any_texture_disposals a + any_texture_disposals b)%nat.
Proof.
  induction a as [|e a IH]; [reflexivity|].
  destruct e as [| | | | | | | | | | | |r]; simpl; try exact IH.
  destruct r; simpl; try exact IH.
  now rewrite IH.
Qed.

Lemma texture_disposals_le_any (i : nat) (tr : list Effect) :
  (texture_disposals i tr <= any_texture_disposals tr)%nat.
Proof.
  induction tr as [|e tr IH]; [reflexivity|].
  destruct e as [| | | | | | | | | | | |r]; simpl; try exact IH.
  destruct r; simpl; try exact IH.
  destruct (Nat.eqb i id); lia.
Qed.

(** ** What the stored texture is after a sequence of events *)

Lemma stored_texture_no_load (evs : list Event) (cur : option Texture.t) :
  loads evs = [] -> stored_texture evs cur = cur.
Proof.
  revert cur. induction evs as [|e evs IH]; intros cur H; [reflexivity|].
  destruct e; simpl in *; try discriminate; now apply IH.
Qed.

Lemma stored_texture_one_load (evs : list Event) (cur : option Texture.t)
      (texture : Texture.t) :
  loads evs = [texture] -> stored_texture evs cur = Some (tagged texture).
Proof.
  revert cur. induction evs as [|e evs IH]; intros cur H; [discriminate|].
  destruct e; simpl in *; try now apply IH.
  injection H as -> H. now apply stored_texture_no_load.
Qed.

Section Facts.

Context {OrbitState : Type}.
Variable orbit_new : Camera.t -> OrbitState.
Variable orbit_update : OrbitState -> Camera.t -> OrbitState * Camera.t.

Implicit Types (s : Session OrbitState) (e : Event) (evs : list Event).

(** *** Live events never dispose a texture *)

Lemma step_any_texture_disposals s e :
  any_texture_disposals (trace (step orbit_update s e)) = any_texture_disposals (trace s).
Proof.
  destruct e; simpl; try reflexivity;
    rewrite ?any_texture_disposals_app; simpl; lia.
Qed.

Lemma run_any_texture_disposals evs s :
  any_texture_disposals (trace (run orbit_update evs s)) = any_texture_disposals (trace s).
Proof.
  revert s. induction evs as [|e evs IH]; intro s; [reflexivity|].
  unfold run in *. simpl. rewrite IH. apply step_any_texture_disposals.
Qed.

Lemma step_environmentTexture s e :
  environmentTexture (step orbit_update s e)
  = stored_texture [e] (environmentTexture s).
Proof. destruct e; reflexivity. Qed.

Lemma run_environmentTexture evs s :
  environmentTexture (run orbit_update evs s) = stored_texture evs (environmentTexture s).
Proof.
  revert s. induction evs as [|e evs IH]; intro s; [reflexivity|].
  unfold run in *. simpl fold_left. rewrite IH, step_environmentTexture.
  destruct e; reflexivity.
Qed.

Lemma setup_any_texture_disposals w f :
  any_texture_disposals (trace (setup orbit_new orbit_update w f)) = 0%nat.
Proof. reflexivity. Qed.

Lemma setup_environmentTexture w f : environmentTexture (setup orbit_new orbit_update w f) = None.
Proof. reflexivity. Qed.

(** *** What cleanup appends to the trace *)

Lemma cleanup_trace mc s :
  trace (cleanup mc s)
  = trace s
    ++ [RemoveResizeListener; CancelAnimationFrame (animationId s)]
    ++ (if mc then [RemoveChild] else [])
    ++ [Dispose ResGeometry; Dispose ResMaterial1; Dispose ResMaterial2;
        Dispose ResRenderer]
    ++ match environmentTexture s with
       | Some texture => [Dispose (ResTexture (Texture.id texture))]
       | None => []
       end
    ++ [GuiDestroy].
Proof.
  unfold cleanup.
  destruct mc, (environmentTexture s) eqn:E; simpl; rewrite ?E; simpl;
    repeat rewrite <- app_assoc; reflexivity.
Qed.

(** *** Teardown and the environment texture *)

(** C1 (as the code has it).  Take any session: the effect body followed
    by any sequence of live callbacks.  If the loader delivered its texture
    during that time, cleanup disposes that texture exactly once, and it is
    the only texture disposal of the whole trace.  If the loader had not
    delivered yet, cleanup disposes no texture; a success callback that
    arrives after cleanup is then not ignored: it stores the tagged texture
    as scene background, as scene environment and in
    [environmentTexture], and nothing disposes it. *)
Theorem cleanup_disposes_loaded_texture_once
        (w : Window) (f : Frame) evs (mc : bool) :
  let s := run orbit_update evs (setup orbit_new orbit_update w f) in
  let s' := cleanup mc s in
  (forall texture,
      loads evs = [texture] ->
      texture_disposals (Texture.id texture) (trace s') = 1%nat
      /\ any_texture_disposals (trace s') = 1%nat)
  /\ (loads evs = [] ->
      any_texture_disposals (trace s') = 0%nat
      /\ forall texture,
          let late := onLoad texture s' in
          Scene.background (scene late) = Some (tagged texture)
          /\ Scene.environment (scene late) = Some (tagged texture)
          /\ environmentTexture late = Some (tagged texture)
          /\ trace late = trace s').
Proof.
  intros s s'.
  assert (Hlive : any_texture_disposals (trace s) = 0%nat).
  { unfold s. rewrite run_any_texture_disposals.
    apply setup_any_texture_disposals. }
  assert (Hexact : forall i, texture_disposals i (trace s) = 0%nat).
  { intro i. pose proof (texture_disposals_le_any i (trace s)). lia. }
  assert (Henv : environmentTexture s = stored_texture evs None).
  { unfold s. rewrite run_environmentTexture.
    now rewrite setup_environmentTexture. }
  split.
  - intros texture Hload.
    rewrite (stored_texture_one_load _ _ _ Hload) in Henv.
    unfold s'. rewrite cleanup_trace, Henv.
    rewrite texture_disposals_app, any_texture_disposals_app, Hexact, Hlive.
    destruct mc; simpl; rewrite Nat.eqb_refl; split; reflexivity.
  - intros Hnone.
    rewrite (stored_texture_no_load _ _ Hnone) in Henv.
    split.
    + unfold s'. rewrite cleanup_trace, Henv.
      rewrite any_texture_disposals_app, Hlive.
      destruct mc; reflexivity.
    + intros texture late. repeat split.
Qed.

(** *** Load failure *)

(** C8.  The failure callback appends the [console.error] call to the trace
    and clears the loading flag; the scene (background and environment
    included), the stored environment texture and every other part of the
    session stay as they were. *)
Theorem onError_logs_and_clears_loading (err : string) s :
  let s' := onError err s in
  trace s' = trace s ++ [ConsoleError "An error occurred loading the HDRI:" err]
  /\ loading s' = false
  /\ scene s' = scene s
  /\ Scene.background (scene s') = Scene.background (scene s)
  /\ Scene.environment (scene s') = Scene.environment (scene s)
  /\ environmentTexture s' = environmentTexture s
  /\ camera s' = camera s
  /\ renderer s' = renderer s
  /\ controls s' = controls s
  /\ geometry s' = geometry s
  /\ material1 s' = material1 s
  /\ material2 s' = material2 s
  /\ sphere1 s' = sphere1 s
  /\ sphere2 s' = sphere2 s
  /\ envParams s' = envParams s
  /\ animationId s' = animationId s.
Proof. intro s'. unfold s', onError. simpl. repeat split. Qed.

(** *** The render loop *)

(** C2.  There are one amplitude [a] (it is 0.1) and one phase [phi] (it is
    2) such that every run of [animate], at time [t] (the clock reading
    scaled by 0.001), leaves the left sphere at height [a * sin t] and the
    right sphere at height [a * sin (t + phi)], both within [-a, a]. *)
Theorem animate_offsets_sinusoidal :
  exists a phi : R,
    a = 0.1 /\ phi = 2 /\ 0 < a /\
    forall (f : Frame) s,
      let t := dateNow f * 0.001 in
      let s' := animate orbit_update f s in
      let y1 := Vector3.y (Mesh.position (sphere1 s')) in
      let y2 := Vector3.y (Mesh.position (sphere2 s')) in
      y1 = a * sin t
      /\ y2 = a * sin (t + phi)
      /\ - a <= y1 <= a
      /\ - a <= y2 <= a.
Proof.
  exists 0.1, 2. split; [reflexivity|]. split; [reflexivity|].
  split; [lra|].
  intros f s t s' y1 y2.
  assert (E1 : y1 = sin t * 0.1) by reflexivity.
  assert (E2 : y2 = sin (t + 2) * 0.1) by reflexivity.
  pose proof (SIN_bound t) as B1.
  pose proof (SIN_bound (t + 2)) as B2.
  rewrite E1, E2. repeat split; lra.
Qed.

(** *** The environment controls *)

(** C3.  For a brightness value [v] in [0, 2], the change handler leaves
    the renderer's tone-mapping exposure at exactly [v]; running it again
    with the same [v] changes nothing, and the controller as a whole
    (value written to [envParams], then the handler) gives the same
    exposure. *)
Theorem exposure_onChange_identity (v : R) s :
  0 <= v <= 2 ->
  Renderer.toneMappingExposure (renderer (exposure_onChange v s)) = v
  /\ Renderer.toneMappingExposure
       (renderer (exposure_onChange v (exposure_onChange v s))) = v
  /\ exposure_onChange v (exposure_onChange v s) = exposure_onChange v s
  /\ Renderer.toneMappingExposure
       (renderer (step orbit_update s (EnvExposure v))) = v.
Proof. intros _. repeat split. Qed.

(** C4.  For a rotation value [d] in [0, 360] degrees, the change handler
    leaves the y rotation of the scene background and of the scene
    environment both at [d * PI / 180] radians, hence equal. *)
Theorem rotation_onChange_radians (d : R) s :
  0 <= d <= 360 ->
  let s' := rotation_onChange d s in
  let bg := Euler.y (Scene.backgroundRotation (scene s')) in
  let env := Euler.y (Scene.environmentRotation (scene s')) in
  bg = d * PI / 180 /\ env = d * PI / 180 /\ bg = env.
Proof.
  intros _ s' bg env.
  assert (Ebg : bg = d * (PI / 180)) by reflexivity.
  assert (Eenv : env = d * (PI / 180)) by reflexivity.
  rewrite Ebg, Eenv. repeat split; lra.
Qed.

(** C10.  The rotation handler writes only the y component of the two
    rotations: their x and z components, the background, the environment
    and the children of the scene, and every other part of the session are
    as before. *)
Theorem rotation_onChange_frame (v : R) s :
  let s' := rotation_onChange v s in
  Euler.x (Scene.backgroundRotation (scene s'))
  = Euler.x (Scene.backgroundRotation (scene s))
  /\ Euler.z (Scene.backgroundRotation (scene s'))
     = Euler.z (Scene.backgroundRotation (scene s))
  /\ Euler.x (Scene.environmentRotation (scene s'))
     = Euler.x (Scene.environmentRotation (scene s))
  /\ Euler.z (Scene.environmentRotation (scene s'))
     = Euler.z (Scene.environmentRotation (scene s))
  /\ Scene.background (scene s') = Scene.background (scene s)
  /\ Scene.environment (scene s') = Scene.environment (scene s)
  /\ Scene.children (scene s') = Scene.children (scene s)
  /\ camera s' = camera s
  /\ renderer s' = renderer s
  /\ controls s' = controls s
  /\ environmentTexture s' = environmentTexture s
  /\ loading s' = loading s
  /\ geometry s' = geometry s
  /\ material1 s' = material1 s
  /\ material2 s' = material2 s
  /\ sphere1 s' = sphere1 s
  /\ sphere2 s' = sphere2 s
  /\ envParams s' = envParams s
  /\ animationId s' = animationId s
  /\ trace s' = trace s.
Proof. intro s'. repeat split. Qed.

(** *** Resize *)

(** C5.  Running the resize handler a second time with the same window
    dimensions gives the same camera aspect ratio and the same renderer
    size as running it once (the camera and the renderer are the same
    altogether). *)
Theorem onWindowResize_idempotent (w : Window) s :
  let once := onWindowResize w s in
  let twice := onWindowResize w once in
  Camera.aspect (camera twice) = Camera.aspect (camera once)
  /\ Renderer.width (renderer twice) = Renderer.width (renderer once)
  /\ Renderer.height (renderer twice) = Renderer.height (renderer once)
  /\ camera twice = camera once
  /\ renderer twice = renderer once.
Proof. intros once twice. repeat split. Qed.

(** *** The material controls *)

(** C6.  Setting the left sphere's metalness to [x] in [0, 1] through its
    controller makes [material1.metalness] read back [x]; the right
    sphere's material (its metalness in particular) and mesh are
    untouched. *)
Theorem set_material1_metalness_frame (x : R) s :
  0 <= x <= 1 ->
  let s' := set_material1_metalness x s in
  Material.metalness (material1 s') = x
  /\ material2 s' = material2 s
  /\ Material.metalness (material2 s') = Material.metalness (material2 s)
  /\ sphere2 s' = sphere2 s.
Proof. intros _ s'. repeat split. Qed.

(** *** Initial values *)

(** C7.  For a device pixel ratio [r >= 0] of the host, the renderer's
    pixel ratio after the effect body is [min r 2], which is at most 2. *)
Theorem setup_pixelRatio_capped (w : Window) (f : Frame) :
  0 <= devicePixelRatio w ->
  Renderer.pixelRatio (renderer (setup orbit_new orbit_update w f))
  = Rmin (devicePixelRatio w) 2
  /\ Renderer.pixelRatio (renderer (setup orbit_new orbit_update w f)) <= 2.
Proof.
  intros _. split; [reflexivity|].
  change (Rmin (devicePixelRatio w) 2 <= 2). apply Rmin_r.
Qed.

(** C9.  Right after the effect body: the left material is white
    (0xffffff) with metalness 1 and roughness 0.05, the right material is
    0xffaa00 with metalness 1 and roughness 0.2, the spheres sit at
    x = -1.2 and x = 1.2, and the tone-mapping exposure is 1. *)
Theorem setup_initial_values (w : Window) (f : Frame) :
  let s := setup orbit_new orbit_update w f in
  mountEffect orbit_new orbit_update true w f = Some s
  /\ Material.metalness (material1 s) = 1
  /\ Material.roughness (material1 s) = 0.05
  /\ Material.color (material1 s) = 0xffffff%Z
  /\ Material.metalness (material2 s) = 1
  /\ Material.roughness (material2 s) = 0.2
  /\ Material.color (material2 s) = 0xffaa00%Z
  /\ Vector3.x (Mesh.position (sphere1 s)) = -1.2
  /\ Vector3.x (Mesh.position (sphere2 s)) = 1.2
  /\ Renderer.toneMappingExposure (renderer s) = 1.
Proof.
  intro s. unfold s. simpl. repeat split; lra.
Qed.

End Facts.

(** * The properties on the demo host *)

(** A session torn down after its texture (object 7) arrived disposes it
    once; a session torn down with the load still pending disposes none. *)
Lemma cleanup_disposes_loaded_texture_once_witness :
  (texture_disposals 7
     (trace (cleanup true
               (run Demo.orbit_update [HdriLoaded Demo.texture]
                  (setup Demo.orbit_new Demo.orbit_update
                     Demo.window Demo.frame0)))) = 1%nat)
  /\ (any_texture_disposals
        (trace (cleanup true
                  (run Demo.orbit_update []
                     (setup Demo.orbit_new Demo.orbit_update
                        Demo.window Demo.frame0)))) = 0%nat).
Proof.
  split.
  - exact (proj1 (proj1 (cleanup_disposes_loaded_texture_once
                           Demo.orbit_new Demo.orbit_update
                           Demo.window Demo.frame0
                           [HdriLoaded Demo.texture] true)
                        Demo.texture eq_refl)).
  - exact (proj1 (proj2 (cleanup_disposes_loaded_texture_once
                           Demo.orbit_new Demo.orbit_update
                           Demo.window Demo.frame0 [] true)
                        eq_refl)).
Defined.

(** C1 as the specification words it fails: on a session cleaned up while the
    load was pending, the success callback is no no-op.  The scene had no
    background, and has the tagged texture as background afterwards. *)
Lemma late_onLoad_is_not_a_noop :
  let s := cleanup true
             (setup Demo.orbit_new Demo.orbit_update Demo.window Demo.frame0) in
  Scene.background (scene s) = None
  /\ Scene.background (scene (onLoad Demo.texture s))
     = Some (Texture.mk 7 EquirectangularReflectionMapping)
  /\ onLoad Demo.texture s <> s.
Proof.
  intro s. split; [reflexivity|]. split; [reflexivity|].
  intro H.
  apply (f_equal (fun x => Scene.background (scene x))) in H.
  discriminate H.
Qed.

(** Brightness 1.5 on the fresh demo session. *)
Lemma exposure_onChange_identity_witness :
  0 <= 1.5 <= 2
  /\ Renderer.toneMappingExposure
       (renderer
          (exposure_onChange 1.5
             (setup Demo.orbit_new Demo.orbit_update Demo.window Demo.frame0)))
     = 1.5.
Proof.
  split; [lra|].
  apply (exposure_onChange_identity Demo.orbit_update 1.5
           (setup Demo.orbit_new Demo.orbit_update Demo.window Demo.frame0)).
  lra.
Defined.

(** Half a turn on the fresh demo session. *)
Lemma rotation_onChange_radians_witness :
  0 <= 180 <= 360
  /\ Euler.y
       (Scene.backgroundRotation
          (scene
             (rotation_onChange 180
                (setup Demo.orbit_new Demo.orbit_update
                   Demo.window Demo.frame0))))
     = 180 * PI / 180.
Proof.
  split; [lra|].
  apply (rotation_onChange_radians 180
           (setup Demo.orbit_new Demo.orbit_update Demo.window Demo.frame0)).
  lra.
Defined.

(** The end-to-end scenario: start, successful load, left metalness 0.3. *)
Lemma set_material1_metalness_frame_witness :
  let s := run Demo.orbit_update [HdriLoaded Demo.texture]
             (setup Demo.orbit_new Demo.orbit_update Demo.window Demo.frame0) in
  let s' := set_material1_metalness 0.3 s in
  0 <= 0.3 <= 1
  /\ Material.metalness (material1 s') = 0.3
  /\ material2 s' = material2 s
  /\ Material.metalness (material2 s') = Material.metalness (material2 s)
  /\ sphere2 s' = sphere2 s.
Proof.
  intros s s'. split; [lra|].
  apply (set_material1_metalness_frame 0.3 s). lra.
Defined.

(** The demo window has device pixel ratio 3, which is capped to 2. *)
Lemma setup_pixelRatio_capped_witness :
  0 <= devicePixelRatio Demo.window
  /\ Renderer.pixelRatio
       (renderer
          (setup Demo.orbit_new Demo.orbit_update Demo.window Demo.frame0))
     = Rmin 3 2.
Proof.
  split; [simpl; lra|].
  apply (setup_pixelRatio_capped Demo.orbit_new Demo.orbit_update
           Demo.window Demo.frame0).
  simpl; lra.
Defined.


(** * The session over its whole life *)

Arguments set_material1_roughness {OrbitState} _ _.
Arguments set_material1_color {OrbitState} _ _.
Arguments set_material2_metalness {OrbitState} _ _.
Arguments set_material2_roughness {OrbitState} _ _.
Arguments set_material2_color {OrbitState} _ _.

(** ** Traces *)

Lemma count_app (p : Effect -> bool) (a b : list Effect) :
  count p (a ++ b) = (count p a + count p b)%nat.
Proof. unfold count. now rewrite filter_app, length_app. Qed.

Lemma count_live_zero (p : Effect -> bool) (l : list Effect) :
  (forall e, live_effect e = true -> p e = false) ->
  forallb live_effect l = true ->
  count p l = 0%nat.
Proof.
  intros Hp. induction l as [|e l IH]; intro Hl; [reflexivity|].
  simpl in Hl. apply andb_prop in Hl as [He Hl].
  unfold count in *. simpl. rewrite (Hp e He). now apply IH.
Qed.

Lemma emitted_live (evs : list Event) :
  forallb live_effect (flat_map emitted evs) = true.
Proof.
  induction evs as [|e evs IH]; [reflexivity|].
  simpl. rewrite forallb_app, IH, andb_true_r. now destruct e.
Qed.

Lemma count_emitted (p : Effect -> bool) (evs : list Event) :
  (forall e, live_effect e = true -> p e = false) ->
  count p (flat_map emitted evs) = 0%nat.
Proof. intro Hp. apply (count_live_zero p _ Hp), emitted_live. Qed.

Lemma last_requested_app (a b : list Effect) (acc : option nat) :
  last_requested (a ++ b) acc = last_requested b (last_requested a acc).
Proof.
  revert acc. induction a as [|e a IH]; intro acc; [reflexivity|].
  destruct e; simpl; apply IH.
Qed.

Lemma last_window_app (a b : list Event) (w0 : Window) :
  last_window (a ++ b) w0 = last_window b (last_window a w0).
Proof.
  revert w0. induction a as [|e a IH]; intro w0; [reflexivity|].
  destruct e; simpl; apply IH.
Qed.

Section Life.

Context {OrbitState : Type}.
Variable orbit_new : Camera.t -> OrbitState.
Variable orbit_update : OrbitState -> Camera.t -> OrbitState * Camera.t.

Implicit Types (s : Session OrbitState) (e : Event) (evs : list Event).

(** ** Reasoning along a life *)

Lemma run_snoc evs e s :
  run orbit_update (evs ++ [e]) s
  = step orbit_update (run orbit_update evs s) e.
Proof. unfold run. now rewrite fold_left_app. Qed.

(** A property of the fresh session that every callback keeps holds at
    every moment of the session's life. *)
Lemma run_invariant (P : Session OrbitState -> Prop) s :
  P s ->
  (forall s' e, P s' -> P (step orbit_update s' e)) ->
  forall evs, P (run orbit_update evs s).
Proof.
  intros H0 Hstep evs. induction evs as [|e evs IH] using rev_ind.
  - exact H0.
  - rewrite run_snoc. now apply Hstep.
Qed.

Lemma step_trace s e :
  trace (step orbit_update s e) = trace s ++ emitted e.
Proof.
  destruct e; simpl; try (now rewrite app_nil_r);
    repeat rewrite <- app_assoc; reflexivity.
Qed.

Lemma run_trace evs s :
  trace (run orbit_update evs s) = trace s ++ flat_map emitted evs.
Proof.
  induction evs as [|e evs IH] using rev_ind.
  - simpl. now rewrite app_nil_r.
  - rewrite run_snoc, step_trace, IH, flat_map_app. simpl.
    now rewrite app_nil_r, app_assoc.
Qed.

Lemma setup_trace (w : Window) (f : Frame) :
  trace (setup orbit_new orbit_update w f)
  = [AppendChild; LoadRequest hdriUrl; GuiCreate "Material Settings";
     RequestAnimationFrame (rafHandle f); Render; AddResizeListener].
Proof. reflexivity. Qed.

(** ** Invariants of a live session *)

(** X1.  Whatever callbacks run, the renderer keeps the settings of the
    effect body: pixel ratio [min devicePixelRatio 2] (at most 2), ACES
    filmic tone mapping, antialiasing and alpha. *)
Theorem renderer_settings_kept (w : Window) (f : Frame) evs :
  let r := renderer (run orbit_update evs (setup orbit_new orbit_update w f)) in
  Renderer.pixelRatio r = Rmin (devicePixelRatio w) 2
  /\ Renderer.pixelRatio r <= 2
  /\ Renderer.toneMapping r = ACESFilmicToneMapping
  /\ Renderer.antialias r = true
  /\ Renderer.alpha r = true.
Proof.
  intro r.
  assert (H : Renderer.pixelRatio r = Rmin (devicePixelRatio w) 2
              /\ Renderer.toneMapping r = ACESFilmicToneMapping
              /\ Renderer.antialias r = true
              /\ Renderer.alpha r = true).
  { unfold r.
    apply (run_invariant
             (fun s => Renderer.pixelRatio (renderer s)
                       = Rmin (devicePixelRatio w) 2
                       /\ Renderer.toneMapping (renderer s)
                          = ACESFilmicToneMapping
                       /\ Renderer.antialias (renderer s) = true
                       /\ Renderer.alpha (renderer s) = true)).
    - repeat split.
    - intros s' e Hs'. destruct e; exact Hs'. }
  destruct H as (Hp & Ht & Ha & Hal).
  repeat split; try assumption.
  rewrite Hp. apply Rmin_r.
Qed.

(** X2.  At every moment of a session the left sphere is at x = -1.2 and
    the right one at x = 1.2, both at z = 0, and both heights are within
    [-0.1, 0.1]; each mesh keeps its own material and the shared geometry. *)
Theorem spheres_stay_in_lane (w : Window) (f : Frame) evs :
  let s := run orbit_update evs (setup orbit_new orbit_update w f) in
  let p1 := Mesh.position (sphere1 s) in
  let p2 := Mesh.position (sphere2 s) in
  Vector3.x p1 = -1.2 /\ Vector3.x p2 = 1.2
  /\ Vector3.z p1 = 0 /\ Vector3.z p2 = 0
  /\ -0.1 <= Vector3.y p1 <= 0.1
  /\ -0.1 <= Vector3.y p2 <= 0.1
  /\ Mesh.material (sphere1 s) = RefMaterial1
  /\ Mesh.material (sphere2 s) = RefMaterial2
  /\ Mesh.geometry (sphere1 s) = geometry s
  /\ Mesh.geometry (sphere2 s) = geometry s.
Proof.
  cbv zeta.
  apply (run_invariant
           (fun s =>
              Vector3.x (Mesh.position (sphere1 s)) = -1.2
              /\ Vector3.x (Mesh.position (sphere2 s)) = 1.2
              /\ Vector3.z (Mesh.position (sphere1 s)) = 0
              /\ Vector3.z (Mesh.position (sphere2 s)) = 0
              /\ -0.1 <= Vector3.y (Mesh.position (sphere1 s)) <= 0.1
              /\ -0.1 <= Vector3.y (Mesh.position (sphere2 s)) <= 0.1
              /\ Mesh.material (sphere1 s) = RefMaterial1
              /\ Mesh.material (sphere2 s) = RefMaterial2
              /\ Mesh.geometry (sphere1 s) = geometry s
              /\ Mesh.geometry (sphere2 s) = geometry s)).
  - pose proof (SIN_bound (dateNow f * 0.001)) as B1.
    pose proof (SIN_bound (dateNow f * 0.001 + 2)) as B2.
    simpl. repeat split; lra.
  - intros s' e Hs'. destruct e; try exact Hs'.
    destruct Hs' as (X1 & X2 & Z1 & Z2 & _ & _ & M1 & M2 & G1 & G2).
    pose proof (SIN_bound (dateNow f0 * 0.001)) as B1.
    pose proof (SIN_bound (dateNow f0 * 0.001 + 2)) as B2.
    simpl. repeat split; try assumption; lra.
Qed.

(** X3.  At every moment of a session the scene background, the scene
    environment and [environmentTexture] hold the same thing: nothing until
    a texture arrives, then the last texture that arrived, tagged for
    equirectangular reflection. *)
Theorem texture_slots_agree (w : Window) (f : Frame) evs :
  let s := run orbit_update evs (setup orbit_new orbit_update w f) in
  Scene.background (scene s) = environmentTexture s
  /\ Scene.environment (scene s) = environmentTexture s
  /\ environmentTexture s = stored_texture evs None
  /\ (forall texture,
        environmentTexture s = Some texture ->
        Texture.mapping texture = EquirectangularReflectionMapping)
  /\ (loads evs = [] -> environmentTexture s = None).
Proof.
  intro s.
  assert (H : Scene.background (scene s) = environmentTexture s
              /\ Scene.environment (scene s) = environmentTexture s
              /\ (forall texture,
                    environmentTexture s = Some texture ->
                    Texture.mapping texture = EquirectangularReflectionMapping)).
  { unfold s.
    apply (run_invariant
             (fun s =>
                Scene.background (scene s) = environmentTexture s
                /\ Scene.environment (scene s) = environmentTexture s
                /\ (forall texture,
                      environmentTexture s = Some texture ->
                      Texture.mapping texture
                      = EquirectangularReflectionMapping))).
    - repeat split. discriminate.
    - intros s' e Hs'. destruct e; try exact Hs'.
      simpl. repeat split. intros tx Htx. now injection Htx as <-. }
  destruct H as (Hb & He & Hm).
  assert (Hs : environmentTexture s = stored_texture evs None).
  { unfold s. now rewrite run_environmentTexture. }
  repeat split; try assumption.
  intro Hnone. rewrite Hs. now apply stored_texture_no_load.
Qed.

(** X4.  The loading flag is up exactly until the loader calls back, with
    the texture or with an error; so the component shows one overlay at a
    time: the loading one before the first loader callback, the help text
    after it. *)
Theorem loading_until_loader_calls_back (w : Window) (f : Frame) evs :
  let s := run orbit_update evs (setup orbit_new orbit_update w f) in
  loading s = negb (existsb is_loader_callback evs)
  /\ overlays (loading s)
     = [if existsb is_loader_callback evs then InfoOverlay else LoadingOverlay].
Proof.
  intro s.
  assert (H : loading s = negb (existsb is_loader_callback evs)).
  { unfold s. induction evs as [|e evs IH] using rev_ind; [reflexivity|].
    rewrite run_snoc, existsb_app. simpl. rewrite orb_false_r, negb_orb, <- IH.
    destruct e; simpl; try (now rewrite andb_true_r); now rewrite andb_false_r. }
  split; [exact H|].
  rewrite H. now destruct (existsb is_loader_callback evs).
Qed.

(** X5.  What the environment folder of the panel holds is what the scene
    uses, at every moment: the exposure of [envParams] is the renderer's
    tone-mapping exposure, and its rotation, in radians, is the y rotation
    of both the background and the environment. *)
Theorem envParams_match_scene (w : Window) (f : Frame) evs :
  let s := run orbit_update evs (setup orbit_new orbit_update w f) in
  Renderer.toneMappingExposure (renderer s) = exposure (envParams s)
  /\ Euler.y (Scene.backgroundRotation (scene s))
     = rotation (envParams s) * (PI / 180)
  /\ Euler.y (Scene.environmentRotation (scene s))
     = rotation (envParams s) * (PI / 180).
Proof.
  cbv zeta.
  apply (run_invariant
           (fun s =>
              Renderer.toneMappingExposure (renderer s) = exposure (envParams s)
              /\ Euler.y (Scene.backgroundRotation (scene s))
                 = rotation (envParams s) * (PI / 180)
              /\ Euler.y (Scene.environmentRotation (scene s))
                 = rotation (envParams s) * (PI / 180))).
  - simpl. repeat split; lra.
  - intros s' e (He & Hb & Hv). destruct e; simpl; repeat split; assumption.
Qed.

(** X6.  When the orbit controller leaves the camera's aspect alone, at
    every moment of a session the renderer has the size of the window last
    read (by the effect body or by the latest resize) and the camera's
    aspect is that width over that height. *)
Theorem aspect_matches_surface (w : Window) (f : Frame) evs :
  (forall o c, Camera.aspect (snd (orbit_update o c)) = Camera.aspect c) ->
  let s := run orbit_update evs (setup orbit_new orbit_update w f) in
  Renderer.width (renderer s) = innerWidth (last_window evs w)
  /\ Renderer.height (renderer s) = innerHeight (last_window evs w)
  /\ Camera.aspect (camera s)
     = Renderer.width (renderer s) / Renderer.height (renderer s).
Proof.
  intros Horbit s. unfold s. clear s.
  induction evs as [|e evs IH] using rev_ind.
  - simpl. rewrite Horbit. repeat split.
  - rewrite run_snoc, last_window_app.
    destruct IH as (Hw & Hh & Ha).
    destruct e; simpl; try (repeat split; assumption).
    rewrite Horbit. repeat split; assumption.
Qed.

(** ** What cleanup releases *)

(** X7.  A live session always has a pending animation frame, the one
    requested last, and cleanup cancels exactly that one. *)
Theorem cleanup_cancels_latest_frame (w : Window) (f : Frame) evs (mc : bool) :
  let s := run orbit_update evs (setup orbit_new orbit_update w f) in
  exists h : nat,
    animationId s = Some h
    /\ last_requested (trace s) None = Some h
    /\ In (CancelAnimationFrame (Some h)) (trace (cleanup mc s))
    /\ forall h',
        In (CancelAnimationFrame h') (trace (cleanup mc s)) -> h' = Some h.
Proof.
  intro s.
  assert (H : animationId s = last_requested (trace s) None
              /\ animationId s <> None
              /\ forall h', ~ In (CancelAnimationFrame h') (trace s)).
  { unfold s.
    apply (run_invariant
             (fun s => animationId s = last_requested (trace s) None
                       /\ animationId s <> None
                       /\ forall h', ~ In (CancelAnimationFrame h') (trace s))).
    - repeat split; [discriminate|].
      intros h' Hin. simpl in Hin.
      repeat (destruct Hin as [Hin|Hin]; [discriminate Hin|]). exact Hin.
    - intros s' e (Hid & Hsome & Hno).
      rewrite step_trace, last_requested_app, <- Hid.
      split; [now destruct e|]. split; [now destruct e|].
      intros h' Hin. apply in_app_or in Hin as [Hin|Hin].
      + exact (Hno h' Hin).
      + destruct e; simpl in Hin;
          repeat (destruct Hin as [Hin|Hin]; [discriminate Hin|]); exact Hin. }
  destruct H as (Hid & Hsome & Hno).
  destruct (animationId s) as [h|] eqn:E; [|contradiction].
  exists h. split; [reflexivity|]. split; [now symmetry|].
  rewrite cleanup_trace, E. split.
  - apply in_or_app. right. right. now left.
  - intros h' Hin. apply in_app_or in Hin as [Hin|Hin].
    + now apply Hno in Hin.
    + destruct mc, (environmentTexture s); simpl in Hin;
        repeat (destruct Hin as [Hin|Hin];
                [first [now injection Hin as <- | discriminate Hin]|]);
        contradiction.
Qed.

(** X8.  After cleanup the trace of a session, whatever its life was, holds
    exactly one disposal of the geometry, of each material and of the
    renderer, one panel creation and one destruction, one resize listener
    added and one removed, and one canvas attachment, which is undone once
    when the mount node is still there and not at all otherwise. *)
Theorem cleanup_releases_each_resource_once
        (w : Window) (f : Frame) evs (mc : bool) :
  let tr := trace (cleanup mc
                     (run orbit_update evs
                        (setup orbit_new orbit_update w f))) in
  count (is_dispose_of ResGeometry) tr = 1%nat
  /\ count (is_dispose_of ResMaterial1) tr = 1%nat
  /\ count (is_dispose_of ResMaterial2) tr = 1%nat
  /\ count (is_dispose_of ResRenderer) tr = 1%nat
  /\ count is_gui_create tr = 1%nat
  /\ count is_gui_destroy tr = 1%nat
  /\ count is_add_listener tr = 1%nat
  /\ count is_remove_listener tr = 1%nat
  /\ count is_append_child tr = 1%nat
  /\ count is_remove_child tr = (if mc then 1 else 0)%nat.
Proof.
  intro tr. unfold tr. clear tr.
  rewrite cleanup_trace, run_trace, setup_trace.
  repeat split;
    repeat rewrite count_app;
    (rewrite count_emitted by (now intros [] He));
    destruct mc,
      (environmentTexture
         (run orbit_update evs (setup orbit_new orbit_update w f)));
    reflexivity.
Qed.

(** X9.  The HDRI is requested once per session and never again, also after
    the loader reported an error: the trace holds one load request, for the
    fixed URL, however the session went. *)
Theorem load_requested_once (w : Window) (f : Frame) evs (mc : bool) :
  let s := run orbit_update evs (setup orbit_new orbit_update w f) in
  count is_load_request (trace s) = 1%nat
  /\ count is_load_request (trace (cleanup mc s)) = 1%nat
  /\ In (LoadRequest hdriUrl) (trace s).
Proof.
  intro s. unfold s. clear s.
  repeat split.
  - rewrite run_trace, setup_trace, count_app.
    now rewrite count_emitted by (now intros [] He).
  - rewrite cleanup_trace, run_trace, setup_trace.
    repeat rewrite count_app.
    rewrite count_emitted by (now intros [] He).
    destruct mc,
      (environmentTexture
         (run orbit_update evs (setup orbit_new orbit_update w f)));
      reflexivity.
  - rewrite run_trace, setup_trace. apply in_or_app. left. right. now left.
Qed.

(** ** The render loop over a life *)

(** X10.  Every frame is requested once and drawn once: the trace of a
    session holds one [requestAnimationFrame] call and one [render] call for
    the effect body plus one of each per display frame, and no other
    callback draws (a panel change or a resize shows at the next frame). *)
Theorem frames_rendered_once (w : Window) (f : Frame) evs :
  let s := run orbit_update evs (setup orbit_new orbit_update w f) in
  count is_render (trace s) = S (List.length (filter is_frame evs))
  /\ count is_request_frame (trace s) = S (List.length (filter is_frame evs)).
Proof.
  intro s. unfold s. clear s.
  rewrite run_trace, setup_trace, !count_app.
  assert (H : count is_render (flat_map emitted evs)
              = List.length (filter is_frame evs)
              /\ count is_request_frame (flat_map emitted evs)
                 = List.length (filter is_frame evs)).
  { induction evs as [|e evs [IH1 IH2]]; [split; reflexivity|].
    simpl flat_map. rewrite !count_app, IH1, IH2.
    destruct e; split; reflexivity. }
  destruct H as [-> ->]. split; reflexivity.
Qed.


(** X13.  The phase shift keeps the spheres out of step: no run of
    [animate] leaves both at the top of their travel (height 0.1), and none
    leaves both at the bottom (height -0.1). *)
Theorem spheres_never_peak_together (f : Frame) s :
  let s' := animate orbit_update f s in
  let y1 := Vector3.y (Mesh.position (sphere1 s')) in
  let y2 := Vector3.y (Mesh.position (sphere2 s')) in
  ~ (y1 = 0.1 /\ y2 = 0.1) /\ ~ (y1 = -0.1 /\ y2 = -0.1).
Proof.
  intros s' y1 y2.
  set (t := dateNow f * 0.001).
  assert (E1 : y1 = sin t * 0.1) by reflexivity.
  assert (E2 : y2 = sin (t + 2) * 0.1) by reflexivity.
  assert (C2 : cos 2 <= 0).
  { pose proof PI_4. pose proof PI2_3_2. apply cos_le_0; lra. }
  assert (Hzero : sin t * sin t = 1 -> cos t = 0).
  { intro Hs. pose proof (sin2_cos2 t) as Hsc. unfold Rsqr in Hsc.
    apply Rsqr_0_uniq. unfold Rsqr. lra. }
  rewrite E1, E2, sin_plus.
  split; intros [H1 H2].
  - assert (Hs : sin t = 1) by lra.
    assert (Hc : cos t = 0) by (apply Hzero; rewrite Hs; lra).
    rewrite Hs, Hc in H2. lra.
  - assert (Hs : sin t = -1) by lra.
    assert (Hc : cos t = 0) by (apply Hzero; rewrite Hs; lra).
    rewrite Hs, Hc in H2. lra.
Qed.

(** ** The panel over a life *)

Lemma material1_run_congruence evs s s' :
  material1 s = material1 s' ->
  material1 (run orbit_update evs s)
  = material1 (run orbit_update (filter is_material1_control evs) s').
Proof.
  revert s s'. induction evs as [|e evs IH]; intros s s' H; [exact H|].
  destruct e; simpl; apply IH; simpl; now rewrite ?H.
Qed.

Lemma material2_run_congruence evs s s' :
  material2 s = material2 s' ->
  material2 (run orbit_update evs s)
  = material2 (run orbit_update (filter is_material2_control evs) s').
Proof.
  revert s s'. induction evs as [|e evs IH]; intros s s' H; [exact H|].
  destruct e; simpl; apply IH; simpl; now rewrite ?H.
Qed.

(** X11.  A material is touched by its own three controllers and by
    nothing else: after any life, the left material is what the left
    folder's changes alone, in the same order, would have made of it, and
    likewise the right one; with no such change it is as set up. *)
Theorem materials_follow_own_controls evs s :
  material1 (run orbit_update evs s)
  = material1 (run orbit_update (filter is_material1_control evs) s)
  /\ material2 (run orbit_update evs s)
     = material2 (run orbit_update (filter is_material2_control evs) s)
  /\ (filter is_material1_control evs = [] ->
      material1 (run orbit_update evs s) = material1 s)
  /\ (filter is_material2_control evs = [] ->
      material2 (run orbit_update evs s) = material2 s).
Proof.
  pose proof (material1_run_congruence evs s s eq_refl) as H1.
  pose proof (material2_run_congruence evs s s eq_refl) as H2.
  repeat split; try assumption.
  - intro E. now rewrite H1, E.
  - intro E. now rewrite H2, E.
Qed.


(** ** The whole trace *)

(** X15.  The outside calls of a live session are the six calls of the
    effect body (attach the canvas, request the HDRI, create the panel,
    request and draw the first frame, listen for resizes) followed, event by
    event and in order, by one [console.error] per load failure, a frame
    request and a draw per display frame and one projection update per
    resize; a texture arrival and a panel change make no outside call. *)
Theorem session_trace (w : Window) (f : Frame) evs :
  trace (run orbit_update evs (setup orbit_new orbit_update w f))
  = [AppendChild; LoadRequest hdriUrl; GuiCreate "Material Settings";
     RequestAnimationFrame (rafHandle f); Render; AddResizeListener]
    ++ flat_map emitted evs
  /\ forallb live_effect (flat_map emitted evs) = true.
Proof.
  split.
  - now rewrite run_trace, setup_trace.
  - apply emitted_live.
Qed.

End Life.

(** ** The life properties on the demo host *)

(** The demo controller returns the camera it was given; after a resize to
    1024 x 768 the aspect is that of the renderer's size. *)
Lemma aspect_matches_surface_witness :
  let s := run Demo.orbit_update [WindowResize (mkWindow 1024 768 1)]
             (setup Demo.orbit_new Demo.orbit_update Demo.window Demo.frame0) in
  (forall o c, Camera.aspect (snd (Demo.orbit_update o c)) = Camera.aspect c)
  /\ Renderer.width (renderer s) = 1024
  /\ Renderer.height (renderer s) = 768
  /\ Camera.aspect (camera s)
     = Renderer.width (renderer s) / Renderer.height (renderer s).
Proof.
  intro s. split; [reflexivity|].
  apply (aspect_matches_surface Demo.orbit_new Demo.orbit_update
           Demo.window Demo.frame0 [WindowResize (mkWindow 1024 768 1)]).
  reflexivity.
Defined.


(** After the demo texture arrived, the stored texture is tagged. *)
Lemma texture_slots_agree_witness :
  let s := run Demo.orbit_update [HdriLoaded Demo.texture]
             (setup Demo.orbit_new Demo.orbit_update Demo.window Demo.frame0) in
  environmentTexture s = Some (tagged Demo.texture)
  /\ Texture.mapping (tagged Demo.texture) = EquirectangularReflectionMapping.
Proof.
  intro s. split; [reflexivity|].
  apply (proj1 (proj2 (proj2 (proj2
           (texture_slots_agree Demo.orbit_new Demo.orbit_update
              Demo.window Demo.frame0 [HdriLoaded Demo.texture]))))
           (tagged Demo.texture)).
  reflexivity.
Defined.

(** A frame and a brightness change leave the left material as set up. *)
Lemma materials_follow_own_controls_witness :
  let s := setup Demo.orbit_new Demo.orbit_update Demo.window Demo.frame0 in
  let evs := [AnimationFrame (mkFrame 2 16); EnvExposure 1.5] in
  filter is_material1_control evs = []
  /\ material1 (run Demo.orbit_update evs s) = material1 s.
Proof.
  intros s evs. split; [reflexivity|].
  apply (proj1 (proj2 (proj2
           (materials_follow_own_controls Demo.orbit_update evs s)))).
  reflexivity.
Defined.
